(** * Untappd MCP server: a shallow embedding of [src/index.ts]

    The server is a thin adapter: a credential check at start-up, one axios
    instance bound to the Untappd base address, a static tool catalogue and
    a dispatcher that turns a tool call into one HTTP GET and maps the
    outcome to a tool-result envelope.

    Conventions of the embedding.
    - A JavaScript string is a [string]; it is read as the UTF-8 text of a
      well-formed string (lone surrogates are outside the model).
    - A value that came out of [JSON.parse] is a [json]; a JavaScript value
      that may also be [undefined] is an [option json], [None] being
      [undefined].
    - A JavaScript object used as a map (the tool arguments, the axios
      [params], [process.env]) is a [gmap] keyed by strings.
    - A JavaScript number is kept abstract behind the class [JsNumber]:
      the handlers only ever print numbers. *)

From Stdlib Require Import ZArith Ascii String List DecimalString.
From stdpp Require Import base option strings list gmap.

Local Open Scope string_scope.
Local Open Scope list_scope.

(** ** JavaScript values *)

(** What the program needs of an IEEE double: its [Number::toString]
    rendering and whether it is finite ([JSON.parse] can produce an
    infinity from a literal such as [1e999]). *)
Class JsNumber (number : Type) := {
  number_to_string : number -> string;
  number_is_finite : number -> bool
}.

(** Integers of the safe range print as their decimal numeral. *)
#[global] Instance Z_JsNumber : JsNumber Z := {|
  number_to_string z := NilZero.string_of_int (Z.to_int z);
  number_is_finite _ := true
|}.

Section Json.
Context {number : Type}.

(** The members of [JObj] are listed in the property enumeration order of
    the object; their keys are pairwise distinct. *)
#[warnings="-register-all"]
Inductive json : Type :=
| JNull
| JBool (b : bool)
| JNum (n : number)
| JStr (s : string)
| JArr (items : list json)
| JObj (members : list (string * json)).

(** [None] is [undefined]. *)
Definition js_value : Type := option json.

(** Own property [k] of an object given by its member list. *)
Fixpoint own_property (k : string) (members : list (string * json)) : js_value :=
  match members with
  | [] => None
  | (k', v) :: rest => if String.eqb k' k then Some v else own_property k rest
  end.

(** Induction over nested values: the items of an array and the member
    values of an object come with the property. *)
Definition json_nested_ind (P : json -> Prop)
    (Hnull : P JNull) (Hbool : forall b, P (JBool b)) (Hnum : forall n, P (JNum n))
    (Hstr : forall s, P (JStr s))
    (Harr : forall items, Forall P items -> P (JArr items))
    (Hobj : forall members, Forall (fun kv => P kv.2) members -> P (JObj members))
  : forall v, P v :=
  fix go (v : json) : P v :=
    match v with
    | JNull => Hnull
    | JBool b => Hbool b
    | JNum n => Hnum n
    | JStr s => Hstr s
    | JArr items =>
        Harr items
          ((fix all (l : list json) : Forall P l :=
              match l with
              | [] => List.Forall_nil P
              | x :: rest => List.Forall_cons P x rest (go x) (all rest)
              end) items)
    | JObj members =>
        Hobj members
          ((fix all (l : list (string * json)) : Forall (fun kv => P kv.2) l :=
              match l with
              | [] => List.Forall_nil _
              | kv :: rest => List.Forall_cons _ kv rest (go kv.2) (all rest)
              end) members)
    end.
End Json.

Arguments json : clear implicits.
Arguments js_value : clear implicits.

(** Values thrown by the program or rejected by a promise. *)
Inductive ErrorCode : Type :=
| ConnectionClosed
| RequestTimeout
| ParseError
| InvalidRequest
| MethodNotFound
| InvalidParams
| InternalError.

Section Errors.
Context {number : Type}.

(** [error.response] of an axios error: the HTTP status and the body as
    axios hands it over (parsed JSON, or the raw text as a [JStr]). *)
Record AxiosResponse : Type := {
  status : Z;
  data : json number
}.

Inductive js_error : Type :=
| AxiosError (message : string) (response : option AxiosResponse)
| McpError (code : ErrorCode) (message : string)
| TypeError
| OtherError (message : string).

(** [axios.isAxiosError(error)] *)
Definition isAxiosError (error : js_error) : bool :=
  match error with
  | AxiosError _ _ => true
  | _ => false
  end.
End Errors.

Arguments AxiosResponse : clear implicits.
Arguments js_error : clear implicits.

(** ** String conversions of the language *)

Section Conversions.
Context `{JsNumber number}.

Definition join (sep : string) (parts : list string) : string :=
  match parts with
  | [] => ""
  | p :: ps => fold_left (fun acc q => acc +:+ sep +:+ q) ps p
  end.

(** [ToString], as applied by a template literal [`${v}`].  An array is
    joined with commas, [null] elements printing as nothing.  A plain
    object prints as [[object Object]] through [Object.prototype.toString];
    when it has an own member named [toString] that member shadows the
    method, is not callable, and the inherited [valueOf] returns the object
    itself, so the conversion throws. *)
Fixpoint to_string_json (v : json number) : js_error number + string :=
  match v with
  | JNull => inr "null"
  | JBool true => inr "true"
  | JBool false => inr "false"
  | JNum n => inr (number_to_string n)
  | JStr s => inr s
  | JArr items =>
      let fix elements (l : list (json number)) : js_error number + list string :=
        match l with
        | [] => inr []
        | x :: rest =>
            match (match x with JNull => inr "" | _ => to_string_json x end) with
            | inl e => inl e
            | inr s =>
                match elements rest with
                | inl e => inl e
                | inr ss => inr (s :: ss)
                end
            end
        end in
      match elements items with
      | inl e => inl e
      | inr ss => inr (join "," ss)
      end
  | JObj members =>
      match own_property "toString" members with
      | Some _ => inl TypeError
      | None => inr "[object Object]"
      end
  end.

Definition to_string (v : js_value number) : js_error number + string :=
  match v with
  | None => inr "undefined"
  | Some j => to_string_json j
  end.

(** *** [JSON.stringify] *)

Definition hex_digit (n : N) : ascii :=
  match n with
  | 0 => "0" | 1 => "1" | 2 => "2" | 3 => "3" | 4 => "4" | 5 => "5"
  | 6 => "6" | 7 => "7" | 8 => "8" | 9 => "9" | 10 => "a" | 11 => "b"
  | 12 => "c" | 13 => "d" | 14 => "e" | _ => "f"
  end%N%char.

(** One character of [QuoteJSONString]. *)
Definition quote_char (c : ascii) : string :=
  let n := N_of_ascii c in
  if (n =? 8)%N then "\b"
  else if (n =? 9)%N then "\t"
  else if (n =? 10)%N then "\n"
  else if (n =? 12)%N then "\f"
  else if (n =? 13)%N then "\r"
  else if (n =? 34)%N then String "\" (String c "")
  else if (n =? 92)%N then "\\"
  else if (n <? 32)%N then
    "\u00" +:+ String (hex_digit (n / 16)) (String (hex_digit (n mod 16)) "")
  else String c "".

Fixpoint quote_chars (s : string) : string :=
  match s with
  | EmptyString => ""
  | String c rest => quote_char c +:+ quote_chars rest
  end.

Definition dquote : string := String (ascii_of_N 34) "".
Definition newline : string := String (ascii_of_N 10) "".

Definition QuoteJSONString (s : string) : string :=
  dquote +:+ quote_chars s +:+ dquote.

(** [SerializeJSONProperty] with a non-empty [gap]; [indent] is the
    current indentation.  A value from [JSON.parse] holds no [undefined],
    no function and no [toJSON] method, so every member is printed. *)
Fixpoint SerializeJSONProperty (gap indent : string) (v : json number) : string :=
  match v with
  | JNull => "null"
  | JBool true => "true"
  | JBool false => "false"
  | JNum n => if number_is_finite n then number_to_string n else "null"
  | JStr s => QuoteJSONString s
  | JArr items =>
      let stepback := indent in
      let indent := indent +:+ gap in
      let fix partial (l : list (json number)) : list string :=
        match l with
        | [] => []
        | x :: rest => SerializeJSONProperty gap indent x :: partial rest
        end in
      match partial items with
      | [] => "[]"
      | ps =>
          "[" +:+ newline +:+ indent +:+ join ("," +:+ newline +:+ indent) ps
            +:+ newline +:+ stepback +:+ "]"
      end
  | JObj members =>
      let stepback := indent in
      let indent := indent +:+ gap in
      let fix partial (l : list (string * json number)) : list string :=
        match l with
        | [] => []
        | (k, x) :: rest =>
            (QuoteJSONString k +:+ ": " +:+ SerializeJSONProperty gap indent x)
              :: partial rest
        end in
      match partial members with
      | [] => "{}"
      | ps =>
          "{" +:+ newline +:+ indent +:+ join ("," +:+ newline +:+ indent) ps
            +:+ newline +:+ stepback +:+ "}"
      end
  end.

(** [JSON.stringify(value, null, space)] for a number [space] of 1 to 10:
    the gap is that many blanks. *)
Definition JSON_stringify (value : json number) (space : nat) : string :=
  SerializeJSONProperty (String.concat "" (repeat " " space)) "" value.
End Conversions.

(** ** The HTTP client binding

    axios is a dependency of the program.  What the program relies on is
    modelled here: an instance created by [axios.create(defaults)] answers
    [get(url, config)] by dispatching the merge of its defaults with the
    per-call configuration, the per-call [params] being laid over the
    default ones. *)

Section Client.
Context {number : Type}.

Record AxiosRequestConfig : Type := {
  method : option string;
  baseURL : option string;
  url : option string;
  params : gmap string (js_value number)
}.

Definition mergeConfig (config1 config2 : AxiosRequestConfig) : AxiosRequestConfig :=
  {| method := method config2;
     baseURL := match baseURL config2 with
                | Some b => Some b
                | None => baseURL config1
                end;
     url := url config2;
     params := params config2 ∪ params config1 |}.

(** The remote end: what a dispatched request resolves to, or is rejected
    with. *)
Definition Remote : Type := AxiosRequestConfig -> js_error number + AxiosResponse number.
End Client.

Arguments AxiosRequestConfig : clear implicits.
Arguments Remote : clear implicits.

(** ** Tool catalogue and result envelope *)

Record PropertySchema : Type := {
  prop_type : string;
  prop_description : string;
  default : option Z
}.

Record InputSchema : Type := {
  schema_type : string;
  properties : list (string * PropertySchema);
  required : list string
}.

Record Tool : Type := {
  name : string;
  description : string;
  inputSchema : InputSchema
}.

Record ListToolsResult : Type := { tools : list Tool }.

Record TextContent : Type := { type : string; text : string }.

(** [isError] is an optional property: [None] when the object literal does
    not mention it. *)
Record CallToolResult : Type := {
  content : list TextContent;
  isError : option bool
}.

(** The flag a client reads off an envelope: the protocol takes an absent
    [isError] to be false. *)
Definition isError_flag (result : CallToolResult) : bool :=
  match isError result with
  | Some b => b
  | None => false
  end.

(** ** The server object and its request handlers *)

Section Server.
Context `{JsNumber number}.

(** [request.params] of a call-tool request, as the SDK hands it to the
    handler after validation: a string and an optional record. *)
Record CallToolRequest : Type := {
  params_name : string;
  params_arguments : option (gmap string (json number))
}.

Inductive RequestSchema : Type := ListToolsRequestSchema | CallToolRequestSchema.

(** The SDK [Server], as far as the program configures it. *)
Record Server : Type := {
  server_name : string;
  server_version : string;
  capabilities : list string;
  requestHandlers : list RequestSchema
}.

Record UntappdServer : Type := {
  server : Server;
  axiosInstance : AxiosRequestConfig number
}.

(** A handler runs against the server object it closes over ([this]) and
    the network; [issued] records, oldest first, the requests dispatched so
    far. *)
Record Runtime : Type := {
  this : UntappdServer;
  issued : list (AxiosRequestConfig number)
}.

Definition Handler (A : Type) : Type := Runtime -> (js_error number + A) * Runtime.

Definition ret {A} (a : A) : Handler A := fun w => (inr a, w).

Definition throw {A} (e : js_error number) : Handler A := fun w => (inl e, w).

Definition bind {A B} (m : Handler A) (k : A -> Handler B) : Handler B :=
  fun w =>
    match m w with
    | (inl e, w') => (inl e, w')
    | (inr a, w') => k a w'
    end.

(** [try { body } catch (error) { handler }] *)
Definition try_catch {A} (body : Handler A) (handler : js_error number -> Handler A) : Handler A :=
  fun w =>
    match body w with
    | (inl e, w') => handler e w'
    | (inr a, w') => (inr a, w')
    end.

#[global] Instance Handler_ret : MRet Handler := @ret.
#[global] Instance Handler_bind : MBind Handler := fun A B k m => bind m k.

Variable remote : Remote number.

(** [await this.axiosInstance.get(url, { params })] *)
Definition axiosInstance_get (url : string) (config_params : gmap string (js_value number))
  : Handler (AxiosResponse number) :=
  fun w =>
    let config :=
      mergeConfig (axiosInstance (this w))
        {| method := Some "get"; baseURL := None; url := Some url; params := config_params |} in
    (remote config, {| this := this w; issued := issued w ++ [config] |}).

(** [const { key } = request.params.arguments]: destructuring [undefined]
    throws, otherwise the record is at hand for the property reads. *)
Definition destructure (arguments : option (gmap string (json number)))
  : Handler (gmap string (json number)) :=
  match arguments with
  | None => throw TypeError
  | Some args => ret args
  end.

(** A template literal with one substitution: [`prefix${v}`]. *)
Definition template (prefix : string) (v : js_value number) : Handler string :=
  match to_string v with
  | inl e => throw e
  | inr s => ret (prefix +:+ s)
  end.

(** [v.k] for a name [k] that no prototype and no string or array
    defines (the handlers read [meta] and [error_detail]): reading from
    [undefined] or [null] throws, an object yields its own member, any other
    value yields [undefined]. *)
Definition get_property (v : js_value number) (k : string) : Handler (js_value number) :=
  match v with
  | None | Some JNull => throw TypeError
  | Some (JObj members) => ret (own_property k members)
  | Some _ => ret None
  end.

(** [a ?? b] *)
Definition nullish (a b : js_value number) : js_value number :=
  match a with
  | None | Some JNull => b
  | Some _ => a
  end.

(** [error.response?.data.meta.error_detail] *)
Definition error_detail (response : option (AxiosResponse number)) : Handler (js_value number) :=
  match response with
  | None => ret None
  | Some r =>
      meta ← get_property (Some (data r)) "meta";
      get_property meta "error_detail"
  end.

(** The [return] of the three [try] blocks. *)
Definition success (response : AxiosResponse number) : CallToolResult :=
  {| content := [ {| type := "text"; text := JSON_stringify (data response) 2 |} ];
     isError := None |}.

(** The body of the three [catch] blocks. *)
Definition on_failure (error : js_error number) : Handler CallToolResult :=
  match error with
  | AxiosError message response =>
      detail ← error_detail response;
      shown ← template "Untappd API error: " (nullish detail (Some (JStr message)));
      ret {| content := [ {| type := "text"; text := shown |} ]; isError := Some true |}
  | _ => throw error
  end.

Definition CallToolHandler (request : CallToolRequest) : Handler CallToolResult :=
  let name := params_name request in
  if String.eqb name "get_beer_info" then
    args ← destructure (params_arguments request);
    let beer_id := args !! "beer_id" in
    try_catch
      (path ← template "/beer/info/" beer_id;
       response ← axiosInstance_get path ∅;
       ret (success response))
      on_failure
  else if String.eqb name "search_beer" then
    args ← destructure (params_arguments request);
    let query := args !! "query" in
    try_catch
      (response ← axiosInstance_get "/search/beer" {[ "q" := query ]};
       ret (success response))
      on_failure
  else if String.eqb name "get_user_checkins" then
    args ← destructure (params_arguments request);
    let limit := args !! "limit" in
    try_catch
      (response ← axiosInstance_get "/user/checkins" {[ "limit" := limit ]};
       ret (success response))
      on_failure
  else
    throw (McpError MethodNotFound ("Unknown tool: " +:+ name)).

Definition ListToolsHandler : Handler ListToolsResult :=
  ret {| tools := [
    {| name := "get_beer_info";
       description := "Get information about a specific beer by its ID";
       inputSchema := {|
         schema_type := "object";
         properties := [
           ("beer_id", {| prop_type := "string";
                          prop_description := "The ID of the beer";
                          default := None |}) ];
         required := ["beer_id"] |} |};
    {| name := "search_beer";
       description := "Search for beers by name";
       inputSchema := {|
         schema_type := "object";
         properties := [
           ("query", {| prop_type := "string";
                        prop_description := "The name of the beer to search for";
                        default := None |}) ];
         required := ["query"] |} |};
    {| name := "get_user_checkins";
       description := "Get the authenticated user's check-ins";
       inputSchema := {|
         schema_type := "object";
         properties := [
           ("limit", {| prop_type := "number";
                        prop_description := "The number of check-ins to retrieve";
                        default := Some 25%Z |}) ];
         required := ["user_id"] |} |} ] |}.
End Server.

Arguments CallToolRequest : clear implicits.
Arguments UntappdServer : clear implicits.
Arguments Runtime : clear implicits.
Arguments Handler : clear implicits.

(** ** Process start-up *)

Section Startup.
Context `{JsNumber number}.

(** What the process does to the outside world while it starts, in order. *)
Inductive event : Type :=
| ConsoleError (line : string)
| ConsoleErrorThrown (e : js_error number)
| ProcessExit (code : Z)
| NewServer (name version : string)
| AxiosCreate (config : AxiosRequestConfig number)
| SetRequestHandler (schema : RequestSchema)
| SetOnError
| ProcessOn (signal : string)
| NewStdioServerTransport
| ServerConnect.

(** A computation of the main module: it extends the trace and either
    yields a value or has ended the process ([None]). *)
Definition Process (A : Type) : Type := list event -> option A * list event.

#[global] Instance Process_ret : MRet Process := fun A a t => (Some a, t).
#[global] Instance Process_bind : MBind Process := fun A B k m t =>
  match m t with
  | (Some a, t') => k a t'
  | (None, t') => (None, t')
  end.

Definition emit (e : event) : Process unit := fun t => (Some tt, t ++ [e]).

(** [process.exit(code)] *)
Definition process_exit {A} (code : Z) : Process A := fun t => (None, t ++ [ProcessExit code]).

(** [process.env.NAME || ''] *)
Definition env_or_empty (env : gmap string string) (NAME : string) : string :=
  match env !! NAME with
  | None => ""
  | Some v => if String.eqb v "" then "" else v
  end.

(** [!s] for a string [s] *)
Definition not_string (s : string) : bool := String.eqb s "".

Definition setupToolHandlers (srv : Server) : Process Server :=
  _ ← emit (SetRequestHandler ListToolsRequestSchema);
  _ ← emit (SetRequestHandler CallToolRequestSchema);
  mret {| server_name := server_name srv;
          server_version := server_version srv;
          capabilities := capabilities srv;
          requestHandlers :=
            requestHandlers srv ++ [ListToolsRequestSchema; CallToolRequestSchema] |}.

(** [new UntappdServer()] *)
Definition new_UntappdServer (CLIENT_ID CLIENT_SECRET : string) : Process (UntappdServer number) :=
  _ ← emit (NewServer "untappd-server" "0.1.0");
  let server0 :=
    {| server_name := "untappd-server"; server_version := "0.1.0";
       capabilities := ["resources"; "tools"]; requestHandlers := [] |} in
  let instance :=
    {| method := None;
       baseURL := Some "https://api.untappd.com/v4";
       url := None;
       params := {[ "client_id" := Some (JStr CLIENT_ID);
                    "client_secret" := Some (JStr CLIENT_SECRET) ]} |} in
  _ ← emit (AxiosCreate instance);
  server1 ← setupToolHandlers server0;
  _ ← emit SetOnError;
  _ ← emit (ProcessOn "SIGINT");
  mret {| server := server1; axiosInstance := instance |}.

(** [server.run().catch(console.error)]; [connect] is [None] when
    [this.server.connect(transport)] resolves and the rejection otherwise. *)
Definition run (connect : option (js_error number)) : Process unit :=
  _ ← emit NewStdioServerTransport;
  _ ← emit ServerConnect;
  match connect with
  | None => emit (ConsoleError "Untappd MCP server running on stdio")
  | Some e => emit (ConsoleErrorThrown e)
  end.

(** The module body, top to bottom; it yields the module-level [server]. *)
Definition main (env : gmap string string) (connect : option (js_error number))
  : Process (UntappdServer number) :=
  let CLIENT_ID := env_or_empty env "CLIENT_ID" in
  let CLIENT_SECRET := env_or_empty env "CLIENT_SECRET" in
  _ ← (if not_string CLIENT_ID || not_string CLIENT_SECRET then
         _ ← emit (ConsoleError
                     "Error: CLIENT_ID and CLIENT_SECRET environment variables are required");
         process_exit 1%Z
       else mret tt);
  server ← new_UntappdServer CLIENT_ID CLIENT_SECRET;
  _ ← run connect;
  mret server.
End Startup.

Arguments event : clear implicits.
Arguments Process : clear implicits.

(** * Vocabulary of the statements *)

Definition known_tools : list string := ["get_beer_info"; "search_beer"; "get_user_checkins"].

Section Vocabulary.
Context `{JsNumber number}.

Definition call (n : string) (args : gmap string (json number)) : CallToolRequest number :=
  {| params_name := n; params_arguments := Some args |}.

(** [settle remote r w] is what is left of a handler once it has decided to
    dispatch [r]: the request goes out, and the answer of the remote is
    mapped by [success] or by [on_failure]. *)
Definition settle (remote : Remote number) (r : AxiosRequestConfig number) (w : Runtime number)
  : (js_error number + CallToolResult) * Runtime number :=
  let w' := {| this := this w; issued := issued w ++ [r] |} in
  match remote r with
  | inr response => (inr (success response), w')
  | inl error => on_failure error w'
  end.

Definition get_call (path : string) (extra : gmap string (js_value number))
  : AxiosRequestConfig number :=
  {| method := Some "get"; baseURL := None; url := Some path; params := extra |}.

(** A computation is stateless when it neither reads nor writes the
    runtime: it dispatches nothing, does not touch [this], and ends the
    same way wherever it runs. *)
Definition stateless {A} (m : Handler number A) : Prop :=
  exists o, forall w, m w = (o, w).

Definition error_envelope (shown : string) : CallToolResult :=
  {| content := [ {| type := "text"; text := "Untappd API error: " +:+ shown |} ];
     isError := Some true |}.

(** The schema of a tool at a glance: its name, its [required] list, and
    for each declared property its name, type and default. *)
Definition schema_summary (t : Tool)
  : string * list string * list (string * string * option Z) :=
  (name t,
   required (inputSchema t),
   (fun kp => (kp.1, prop_type kp.2, default kp.2)) <$> properties (inputSchema t)).

Definition is_AxiosCreate (e : event number) : bool :=
  match e with
  | AxiosCreate _ => true
  | _ => false
  end.

Definition missing_credentials_line : string :=
  "Error: CLIENT_ID and CLIENT_SECRET environment variables are required".

Definition untappd_base : string := "https://api.untappd.com/v4".

End Vocabulary.

(** * Fixtures

    Concrete inputs on which the statements below are exercised: a process
    environment, the server it starts, and a few remotes. *)

Definition example_env : gmap string string :=
  {[ "CLIENT_ID" := "abc"; "CLIENT_SECRET" := "xyz" ]}.

Definition example_server : UntappdServer Z :=
  {| server :=
       {| server_name := "untappd-server"; server_version := "0.1.0";
          capabilities := ["resources"; "tools"];
          requestHandlers := [ListToolsRequestSchema; CallToolRequestSchema] |};
     axiosInstance :=
       {| method := None; baseURL := Some untappd_base; url := None;
          params := {[ "client_id" := Some (JStr "abc");
                       "client_secret" := Some (JStr "xyz") ]} |} |}.

Definition example_runtime : Runtime Z := {| this := example_server; issued := [] |}.

(** The request [GET /beer/info/{id}] as the example server sends it. *)
Definition beer_request (id : string) : AxiosRequestConfig Z :=
  {| method := Some "get"; baseURL := Some untappd_base;
     url := Some ("/beer/info/" +:+ id);
     params := {[ "client_id" := Some (JStr "abc"); "client_secret" := Some (JStr "xyz") ]} |}.

Definition beer_body : json Z :=
  JObj [ ("meta", JObj [("code", JNum 200%Z)]);
         ("response",
          JObj [("beer", JObj [("bid", JNum 123%Z); ("beer_name", JStr "Test IPA")])]) ].

Definition quoted (s : string) : string := dquote +:+ s +:+ dquote.

(** [beer_body] as [JSON.stringify(_, null, 2)] prints it. *)
Definition beer_body_text : string :=
  String.concat newline
    [ "{";
      "  " +:+ quoted "meta" +:+ ": {";
      "    " +:+ quoted "code" +:+ ": 200";
      "  },";
      "  " +:+ quoted "response" +:+ ": {";
      "    " +:+ quoted "beer" +:+ ": {";
      "      " +:+ quoted "bid" +:+ ": 123,";
      "      " +:+ quoted "beer_name" +:+ ": " +:+ quoted "Test IPA";
      "    }";
      "  }";
      "}" ].

(** A remote that answers every request with [beer_body]. *)
Definition beer_found : Remote Z :=
  fun _ => inr {| status := 200%Z; data := beer_body |}.

(** A remote that rejects with the API's own error body. *)
Definition beer_not_found : Remote Z :=
  fun _ =>
    inl (AxiosError "Request failed with status code 404"
           (Some {| status := 404%Z;
                    data := JObj [("meta", JObj [("error_detail", JStr "Beer not found")])] |})).

(** A remote whose HTTP error comes from a gateway in front of the API: the
    body is JSON but has no [meta] member. *)
Definition gateway_unavailable : Remote Z :=
  fun _ =>
    inl (AxiosError "Request failed with status code 503"
           (Some {| status := 503%Z;
                    data := JObj [("message", JStr "Service Unavailable")] |})).

(** A remote call that fails with something that is not an axios error. *)
Definition foreign_failure : Remote Z := fun _ => inl (OtherError "boom").

(** * Properties *)

Section Properties.
Context `{JsNumber number}.

Implicit Types (remote : Remote number).
Implicit Types (request : CallToolRequest number) (w : Runtime number) (error : js_error number).
Implicit Types (connect : option (js_error number)) (env : gmap string string).
Implicit Types (v : js_value number).

Lemma unknown_tool_eqb (n : string) :
  n ∉ known_tools ->
  String.eqb n "get_beer_info" = false /\
  String.eqb n "search_beer" = false /\
  String.eqb n "get_user_checkins" = false.
Proof.
  unfold known_tools. intros Hn.
  repeat split; apply String.eqb_neq; intros ->; apply Hn; set_solver.
Qed.

Lemma known_tool_cases (n : string) :
  n ∈ known_tools -> n = "get_beer_info" \/ n = "search_beer" \/ n = "get_user_checkins".
Proof.
  unfold known_tools. intros Hn.
  repeat (apply elem_of_cons in Hn as [-> | Hn]; [tauto |]).
  by apply elem_of_nil in Hn.
Qed.

Lemma unknown_tool_is_method_not_found_aux remote request w :
  params_name request ∉ known_tools ->
  CallToolHandler remote request w
    = (inl (McpError MethodNotFound ("Unknown tool: " +:+ params_name request)), w).
Proof.
  intros Hn. destruct (unknown_tool_eqb _ Hn) as (E1 & E2 & E3).
  unfold CallToolHandler. rewrite E1, E2, E3. reflexivity.
Qed.

Ltac run_handler :=
  unfold CallToolHandler, destructure, try_catch, template, axiosInstance_get,
    error_detail, get_property, settle, get_call,
    mbind, mret, Handler_bind, Handler_ret, bind, ret, throw;
  simpl.

Lemma to_string_json_error (v : json number) error :
  to_string_json v = inl error -> error = TypeError.
Proof.
  revert error. induction v as [ | [] | n | s | items IH | members _] using json_nested_ind;
    intros error; simpl; try discriminate.
  - match goal with |- context [?f items] => set (elements := f) end.
    assert (Hel : forall e, elements items = inl e -> e = TypeError).
    { induction IH as [ | x rest Hx _ IHrest]; intros e; simpl; [discriminate |].
      assert (Hhd : forall e', match x with JNull => inr "" | _ => to_string_json x end = inl e'
                               -> e' = TypeError).
      { intros e'. destruct x; try discriminate; apply Hx. }
      destruct (match x with JNull => inr "" | _ => to_string_json x end) as [e0 | s0].
      - intros [= <-]. by apply Hhd.
      - destruct (elements rest) as [e1 | ss]; [intros [= <-]; by apply IHrest | discriminate]. }
    destruct (elements items) as [e0 | ss]; [intros [= <-]; by apply Hel | discriminate].
  - destruct (own_property "toString" members); [intros [= <-]; reflexivity | discriminate].
Qed.

Lemma to_string_error (v : js_value number) error :
  to_string v = inl error -> error = TypeError.
Proof. destruct v; simpl; [apply to_string_json_error | discriminate]. Qed.

Lemma stateless_ret {A} (a : A) : stateless (ret a : Handler number A).
Proof. by exists (inr a). Qed.

Lemma stateless_throw {A} error : stateless (throw error : Handler number A).
Proof. by exists (inl error). Qed.

Lemma stateless_bind {A B} (m : Handler number A) (k : A -> Handler number B) :
  stateless m -> (forall a, stateless (k a)) -> stateless (m ≫= k).
Proof.
  intros [[e | a] Hm] Hk; unfold mbind, Handler_bind, bind.
  - exists (inl e). intros w. by rewrite Hm.
  - destruct (Hk a) as [o Ho]. exists o. intros w. by rewrite Hm, Ho.
Qed.

Lemma stateless_template prefix v : stateless (template prefix v).
Proof.
  unfold template. destruct (to_string v); [apply stateless_throw | apply stateless_ret].
Qed.

Lemma stateless_get_property v k : stateless (get_property v k).
Proof.
  destruct v as [[ | | | | | ] | ]; simpl; first [apply stateless_throw | apply stateless_ret].
Qed.

Lemma stateless_error_detail (response : option (AxiosResponse number)) : stateless (error_detail response).
Proof.
  destruct response as [r | ]; [ | apply stateless_ret].
  change (stateless (get_property (Some (data r)) "meta" ≫=
                       fun meta => get_property meta "error_detail")).
  apply stateless_bind; [apply stateless_get_property | intros; apply stateless_get_property].
Qed.

(** The [catch] blocks never touch the runtime. *)
Lemma stateless_on_failure error : stateless (on_failure error).
Proof.
  destruct error; try apply stateless_throw. unfold on_failure.
  apply stateless_bind; [apply stateless_error_detail | intros detail].
  apply stateless_bind; [apply stateless_template | intros; apply stateless_ret].
Qed.

Lemma on_failure_runtime error w : (on_failure error w).2 = w.
Proof. destruct (stateless_on_failure error) as [o Ho]. by rewrite Ho. Qed.

Lemma on_failure_outcome error w w' : (on_failure error w).1 = (on_failure error w').1.
Proof. destruct (stateless_on_failure error) as [o Ho]. by rewrite !Ho. Qed.

Lemma settle_runtime remote r w :
  (settle remote r w).2 = {| this := this w; issued := issued w ++ [r] |}.
Proof.
  unfold settle. destruct (remote r); [apply on_failure_runtime | reflexivity].
Qed.

(** Every call either throws before anything is dispatched, or dispatches
    one GET built from the instance defaults and settles it; which of the
    two, and which path and parameters, is decided by the request alone. *)
Lemma CallToolHandler_cases request :
  (exists error, isAxiosError error = false /\
                 forall remote w, CallToolHandler remote request w = (inl error, w)) \/
  (exists path extra, forall remote w,
      CallToolHandler remote request w
        = settle remote (mergeConfig (axiosInstance (this w)) (get_call path extra)) w).
Proof.
  destruct request as [n args].
  destruct (decide (n ∈ known_tools)) as [Hn | Hn].
  - destruct args as [args | ].
    + apply known_tool_cases in Hn as [-> | [-> | ->]].
      * destruct (to_string (args !! "beer_id")) as [e | s] eqn:E.
        -- left. exists e. pose proof (to_string_error _ _ E) as ->.
           split; [reflexivity |]. intros remote w. run_handler. rewrite E. reflexivity.
        -- right. exists ("/beer/info/" +:+ s), ∅. intros remote w. run_handler.
           rewrite E. simpl. destruct (remote _); reflexivity.
      * right. exists "/search/beer", {[ "q" := args !! "query" ]}. intros remote w.
        run_handler. destruct (remote _); reflexivity.
      * right. exists "/user/checkins", {[ "limit" := args !! "limit" ]}. intros remote w.
        run_handler. destruct (remote _); reflexivity.
    + left. exists TypeError. split; [reflexivity |]. intros remote w.
      apply known_tool_cases in Hn as [-> | [-> | ->]]; reflexivity.
  - left. exists (McpError MethodNotFound ("Unknown tool: " +:+ n)).
    split; [reflexivity |].
    intros remote w.
    by apply (unknown_tool_is_method_not_found_aux remote {| params_name := n |}).
Qed.

Variable remote : Remote number.

(** *** The three tools, one by one *)

Lemma get_beer_info_settles args w s :
  to_string (args !! "beer_id") = inr s ->
  CallToolHandler remote (call "get_beer_info" args) w
    = settle remote (mergeConfig (axiosInstance (this w)) (get_call ("/beer/info/" +:+ s) ∅)) w.
Proof. intros E. run_handler. rewrite E. simpl. destruct (remote _); reflexivity. Qed.

Lemma search_beer_settles args w :
  CallToolHandler remote (call "search_beer" args) w
    = settle remote (mergeConfig (axiosInstance (this w))
                (get_call "/search/beer" {[ "q" := args !! "query" ]})) w.
Proof. run_handler. destruct (remote _); reflexivity. Qed.

Lemma get_user_checkins_settles args w :
  CallToolHandler remote (call "get_user_checkins" args) w
    = settle remote (mergeConfig (axiosInstance (this w))
                (get_call "/user/checkins" {[ "limit" := args !! "limit" ]})) w.
Proof. run_handler. destruct (remote _); reflexivity. Qed.

Lemma settle_issued r w : issued (settle remote r w).2 = issued w ++ [r].
Proof. rewrite settle_runtime. reflexivity. Qed.

(** A run that ends with exactly one more request on the wire is the
    settling of that request. *)
Lemma one_request_settled request w o w' r :
  CallToolHandler remote request w = (o, w') ->
  issued w' = issued w ++ [r] ->
  settle remote r w = (o, w').
Proof.
  intros Hrun Hiss.
  destruct (CallToolHandler_cases request) as [(e & _ & He) | (path & extra & Hs)].
  - rewrite He in Hrun. injection Hrun as <- <-.
    apply (f_equal length) in Hiss. rewrite length_app in Hiss. simpl in Hiss. lia.
  - rewrite Hs in Hrun. pose proof (settle_issued (mergeConfig (axiosInstance (this w))
      (get_call path extra)) w) as Hi.
    rewrite Hrun in Hi. simpl in Hi. rewrite Hiss in Hi.
    apply app_inv_head in Hi. injection Hi as ->. exact Hrun.
Qed.

(** *** What the [catch] block makes of an axios error *)

Lemma on_failure_no_response message w :
  on_failure (AxiosError message None) w = (inr (error_envelope message), w).
Proof. reflexivity. Qed.

Lemma on_failure_detail message st members meta detail w :
  own_property "meta" members = Some (JObj meta) ->
  own_property "error_detail" meta = Some (JStr detail) ->
  on_failure (AxiosError message (Some {| status := st; data := JObj members |})) w
    = (inr (error_envelope detail), w).
Proof.
  intros Hm Hd. unfold on_failure. run_handler. rewrite Hm. simpl. rewrite Hd. reflexivity.
Qed.

Lemma on_failure_no_detail message st members meta w :
  own_property "meta" members = Some (JObj meta) ->
  own_property "error_detail" meta = None ->
  on_failure (AxiosError message (Some {| status := st; data := JObj members |})) w
    = (inr (error_envelope message), w).
Proof.
  intros Hm Hd. unfold on_failure. run_handler. rewrite Hm. simpl. rewrite Hd. reflexivity.
Qed.

Lemma on_failure_no_meta message st members w :
  own_property "meta" members = None ->
  on_failure (AxiosError message (Some {| status := st; data := JObj members |})) w
    = (inl TypeError, w).
Proof. intros Hm. unfold on_failure. run_handler. rewrite Hm. reflexivity. Qed.

Lemma on_failure_rethrows error w :
  isAxiosError error = false -> on_failure error w = (inl error, w).
Proof. destruct error; [discriminate | reflexivity ..]. Qed.

(** C2: a call-tool request whose tool name is none of the three known
    names is rejected with a thrown [McpError] of code [MethodNotFound]
    whose message is "Unknown tool: " followed by the offending name; no
    envelope is returned and the runtime is left as it was. *)
Theorem unknown_tool_is_method_not_found request w :
  params_name request ∉ known_tools ->
  CallToolHandler remote request w
    = (inl (McpError MethodNotFound ("Unknown tool: " +:+ params_name request)), w).
Proof.
  apply unknown_tool_is_method_not_found_aux.
Qed.

(** C10: when the arguments of a call to one of the three known tools are
    [undefined], the destructuring throws a [TypeError]; nothing is
    dispatched (the runtime, with its record of issued requests, is
    unchanged) and no envelope is returned. *)
Theorem missing_arguments_throw request w :
  params_name request ∈ known_tools ->
  params_arguments request = None ->
  CallToolHandler remote request w = (inl TypeError, w).
Proof.
  destruct request as [n args]. simpl. intros Hn ->.
  apply known_tool_cases in Hn as [-> | [-> | ->]]; reflexivity.
Qed.

(** C3: whenever a call dispatches a request [r] and the remote resolves
    it with [response], the handler returns an envelope whose content is
    the single text block holding [JSON.stringify(response.data, null, 2)];
    the envelope carries no [isError] property, which the protocol reads as
    false.  (A request is dispatched only for the three known tools.) *)
Theorem success_envelope request w o w' r response :
  CallToolHandler remote request w = (o, w') ->
  issued w' = issued w ++ [r] ->
  remote r = inr response ->
  exists result,
    o = inr result /\
    content result = [ {| type := "text"; text := JSON_stringify (data response) 2 |} ] /\
    isError result = None /\
    isError_flag result = false.
Proof.
  intros Hrun Hiss Hok. pose proof (one_request_settled _ _ _ _ _ Hrun Hiss) as Hs.
  unfold settle in Hs. rewrite Hok in Hs. injection Hs as <- _.
  eexists. split; [reflexivity |]. repeat split.
Qed.

(** C8: whenever a call dispatches a request [r] and the remote rejects it
    with an error that [axios.isAxiosError] does not recognise, the handler
    throws that very error; no envelope is returned. *)
Theorem foreign_error_rethrown request w o w' r error :
  CallToolHandler remote request w = (o, w') ->
  issued w' = issued w ++ [r] ->
  remote r = inl error ->
  isAxiosError error = false ->
  o = inl error.
Proof.
  intros Hrun Hiss Hko Hax. pose proof (one_request_settled _ _ _ _ _ Hrun Hiss) as Hs.
  unfold settle in Hs. rewrite Hko, (on_failure_rethrows _ _ Hax) in Hs.
  by injection Hs as <- _.
Qed.

(** What [on_failure] does with an axios error whose response body is an
    object without a [meta] member: the read of [error_detail] throws
    inside the [catch] block, so the fallback to [error.message] is never
    reached. *)
Lemma api_error_without_meta request w o w' r message st members :
  CallToolHandler remote request w = (o, w') ->
  issued w' = issued w ++ [r] ->
  remote r = inl (AxiosError message (Some {| status := st; data := JObj members |})) ->
  own_property "meta" members = None ->
  o = inl TypeError.
Proof.
  intros Hrun Hiss Hko Hm. pose proof (one_request_settled _ _ _ _ _ Hrun Hiss) as Hs.
  unfold settle in Hs. rewrite Hko, (on_failure_no_meta _ _ _ _ Hm) in Hs.
  by injection Hs as <- _.
Qed.

(** *** Start-up *)

Lemma env_or_empty_set env NAME (v : string) :
  env !! NAME = Some v -> v ≠ "" -> env_or_empty env NAME = v.
Proof.
  intros E Hv. unfold env_or_empty. rewrite E.
  destruct (String.eqb_spec v ""); [contradiction | reflexivity].
Qed.

Lemma env_or_empty_unset env NAME :
  env !! NAME = None \/ env !! NAME = Some "" -> env_or_empty env NAME = "".
Proof. unfold env_or_empty. intros [-> | ->]; reflexivity. Qed.

Lemma not_string_false (v : string) : v ≠ "" -> not_string v = false.
Proof. intros Hv. by apply String.eqb_neq. Qed.

Lemma main_exits env connect :
  env_or_empty env "CLIENT_ID" = "" \/ env_or_empty env "CLIENT_SECRET" = "" ->
  main env connect [] = (None, [ConsoleError missing_credentials_line; ProcessExit 1]).
Proof.
  intros Hmiss. unfold main.
  assert (not_string (env_or_empty env "CLIENT_ID")
          || not_string (env_or_empty env "CLIENT_SECRET") = true) as Hgate.
  { destruct Hmiss as [-> | ->]; [reflexivity | apply orb_true_r]. }
  unfold mbind at 1, Process_bind at 1. rewrite Hgate. reflexivity.
Qed.

Lemma main_starts env connect id secret :
  env !! "CLIENT_ID" = Some id -> id ≠ "" ->
  env !! "CLIENT_SECRET" = Some secret -> secret ≠ "" ->
  exists srv,
    axiosInstance srv
      = {| method := None; baseURL := Some untappd_base; url := None;
           params := {[ "client_id" := Some (JStr id);
                        "client_secret" := Some (JStr secret) ]} |} /\
    main env connect []
      = (Some srv,
         [ NewServer "untappd-server" "0.1.0";
           AxiosCreate (axiosInstance srv);
           SetRequestHandler ListToolsRequestSchema;
           SetRequestHandler CallToolRequestSchema;
           SetOnError;
           ProcessOn "SIGINT";
           NewStdioServerTransport;
           ServerConnect;
           match connect with
           | None => ConsoleError "Untappd MCP server running on stdio"
           | Some e => ConsoleErrorThrown e
           end ]).
Proof.
  intros Eid Hid Esec Hsec. unfold main.
  rewrite (env_or_empty_set _ _ _ Eid Hid), (env_or_empty_set _ _ _ Esec Hsec).
  rewrite (not_string_false _ Hid), (not_string_false _ Hsec). simpl.
  exists {| server :=
              {| server_name := "untappd-server"; server_version := "0.1.0";
                 capabilities := ["resources"; "tools"];
                 requestHandlers := [ListToolsRequestSchema; CallToolRequestSchema] |};
            axiosInstance :=
              {| method := None; baseURL := Some untappd_base; url := None;
                 params := {[ "client_id" := Some (JStr id);
                              "client_secret" := Some (JStr secret) ]} |} |}.
  split; [reflexivity | destruct connect; reflexivity].
Qed.

(** C4: if [CLIENT_ID] or [CLIENT_SECRET] is unset or empty in the
    environment, the whole run of the main module is one diagnostic line on
    the error stream followed by [process.exit(1)]: no server is
    constructed and no transport is connected.  If both are set and
    non-empty, the process does not exit: it constructs the server and the
    axios instance, registers the handlers and connects the transport. *)
Theorem startup_credential_gate env connect :
  (env !! "CLIENT_ID" = None \/ env !! "CLIENT_ID" = Some "" \/
   env !! "CLIENT_SECRET" = None \/ env !! "CLIENT_SECRET" = Some "" ->
   main env connect [] = (None, [ConsoleError missing_credentials_line; ProcessExit 1]))
  /\
  (forall id secret,
      env !! "CLIENT_ID" = Some id -> id ≠ "" ->
      env !! "CLIENT_SECRET" = Some secret -> secret ≠ "" ->
      exists srv trace,
        main env connect [] = (Some srv, trace) /\
        (forall code, ProcessExit code ∉ trace) /\
        hd_error trace = Some (NewServer "untappd-server" "0.1.0") /\
        ServerConnect ∈ trace).
Proof.
  split.
  - intros Hmiss. apply main_exits.
    destruct Hmiss as [E | [E | [E | E]]];
      [left | left | right | right]; apply env_or_empty_unset; tauto.
  - intros id secret Eid Hid Esec Hsec.
    destruct (main_starts env connect id secret Eid Hid Esec Hsec) as (srv & _ & Hmain).
    eexists _, _. split; [exact Hmain |]. repeat split.
    + intros code Hin. repeat (apply elem_of_cons in Hin as [Hin | Hin]; [ | ]);
        try discriminate; try (by apply elem_of_nil in Hin).
      destruct connect; discriminate.
    + rewrite !elem_of_cons. do 7 right. by left.
Qed.

(** *** The catalogue *)

(** The dispatcher reads nothing of the arguments but the member named
    after the tool's one parameter. *)
Lemma get_beer_info_reads_beer_id args args' w :
  args !! "beer_id" = args' !! "beer_id" ->
  CallToolHandler remote (call "get_beer_info" args) w
    = CallToolHandler remote (call "get_beer_info" args') w.
Proof. intros E. run_handler. rewrite E. reflexivity. Qed.

Lemma search_beer_reads_query args args' w :
  args !! "query" = args' !! "query" ->
  CallToolHandler remote (call "search_beer" args) w
    = CallToolHandler remote (call "search_beer" args') w.
Proof. intros E. rewrite !search_beer_settles, E. reflexivity. Qed.

Lemma get_user_checkins_reads_limit args args' w :
  args !! "limit" = args' !! "limit" ->
  CallToolHandler remote (call "get_user_checkins" args) w
    = CallToolHandler remote (call "get_user_checkins" args') w.
Proof. intros E. rewrite !get_user_checkins_settles, E. reflexivity. Qed.

Lemma user_id_never_read n args (v : json number) w :
  CallToolHandler remote (call n (<["user_id" := v]> args)) w
    = CallToolHandler remote (call n args) w.
Proof.
  destruct (decide (n ∈ known_tools)) as [Hn | Hn].
  - apply known_tool_cases in Hn as [-> | [-> | ->]].
    + apply get_beer_info_reads_beer_id. by rewrite lookup_insert_ne.
    + apply search_beer_reads_query. by rewrite lookup_insert_ne.
    + apply get_user_checkins_reads_limit. by rewrite lookup_insert_ne.
  - rewrite !unknown_tool_is_method_not_found_aux by exact Hn. reflexivity.
Qed.

(** C5: listing the tools leaves the runtime untouched and returns, whatever
    the runtime, the same three descriptors in the same order, one per
    name: [get_beer_info] requiring the string [beer_id], [search_beer]
    requiring the string [query], and [get_user_checkins] declaring the one
    property [limit] (a number, default 25) while requiring [user_id], a
    name that is no declared property and that the dispatcher never
    reads. *)
Theorem list_tools_catalogue w :
  exists result,
    ListToolsHandler (number := number) w = (inr result, w) /\
    (forall w0, (ListToolsHandler (number := number) w0).1 = inr result) /\
    name <$> tools result = known_tools /\
    NoDup (name <$> tools result) /\
    schema_summary <$> tools result
      = [ ("get_beer_info", ["beer_id"], [("beer_id", "string", None)]);
          ("search_beer", ["query"], [("query", "string", None)]);
          ("get_user_checkins", ["user_id"], [("limit", "number", Some 25%Z)]) ] /\
    (forall n args (v : json number) w0,
        CallToolHandler remote (call n (<["user_id" := v]> args)) w0
          = CallToolHandler remote (call n args) w0).
Proof.
  eexists. split; [reflexivity |]. split; [reflexivity |].
  split; [reflexivity |]. split; [ | split; [reflexivity | apply user_id_never_read]].
  simpl. repeat constructor; rewrite ?elem_of_cons, ?elem_of_nil; intuition discriminate.
Qed.

(** C6: with an arguments record at hand, each tool puts exactly one request
    on the wire, a GET made of the instance defaults and of the tool's own
    path and parameter: [/beer/info/] followed by the string form of
    [beer_id] (when that conversion does not throw), [/search/beer] with
    [q] set to [query], [/user/checkins] with [limit] set to [limit].  Two
    argument records that agree on that one member give the same run. *)
Theorem each_tool_issues_one_get args w :
  let inst := axiosInstance (this w) in
  let get path ps :=
    {| method := Some "get"; baseURL := baseURL inst; url := Some path; params := ps |} in
  (forall s, to_string (args !! "beer_id") = inr s ->
      issued (CallToolHandler remote (call "get_beer_info" args) w).2
        = issued w ++ [get ("/beer/info/" +:+ s) (params inst)]) /\
  issued (CallToolHandler remote (call "search_beer" args) w).2
    = issued w ++ [get "/search/beer" (<["q" := args !! "query"]> (params inst))] /\
  issued (CallToolHandler remote (call "get_user_checkins" args) w).2
    = issued w ++ [get "/user/checkins" (<["limit" := args !! "limit"]> (params inst))] /\
  (forall args',
      (args !! "beer_id" = args' !! "beer_id" ->
       CallToolHandler remote (call "get_beer_info" args) w
         = CallToolHandler remote (call "get_beer_info" args') w) /\
      (args !! "query" = args' !! "query" ->
       CallToolHandler remote (call "search_beer" args) w
         = CallToolHandler remote (call "search_beer" args') w) /\
      (args !! "limit" = args' !! "limit" ->
       CallToolHandler remote (call "get_user_checkins" args) w
         = CallToolHandler remote (call "get_user_checkins" args') w)).
Proof.
  simpl. split; [ | split; [ | split; [ | intros args'; split; [ | split]]]].
  - intros s E. rewrite (get_beer_info_settles _ _ _ E), settle_issued.
    unfold mergeConfig, get_call. simpl. by rewrite (left_id_L ∅ (∪)).
  - rewrite search_beer_settles, settle_issued.
    unfold mergeConfig, get_call. simpl. by rewrite insert_union_singleton_l.
  - rewrite get_user_checkins_settles, settle_issued.
    unfold mergeConfig, get_call. simpl. by rewrite insert_union_singleton_l.
  - apply get_beer_info_reads_beer_id.
  - apply search_beer_reads_query.
  - apply get_user_checkins_reads_limit.
Qed.

(** *** The client configuration *)

(** The handlers only read [this]. *)
Lemma CallToolHandler_this request w : this (CallToolHandler remote request w).2 = this w.
Proof.
  destruct (CallToolHandler_cases request) as [(e & _ & He) | (path & extra & Hs)].
  - by rewrite He.
  - by rewrite Hs, settle_runtime.
Qed.

(** A dispatched request inherits the base address of the instance and
    every default parameter that the call does not set itself. *)
Lemma CallToolHandler_issued request w :
  issued (CallToolHandler remote request w).2 = issued w \/
  exists path extra,
    issued (CallToolHandler remote request w).2
      = issued w ++ [mergeConfig (axiosInstance (this w)) (get_call path extra)] /\
    (extra = ∅ \/ (exists v, extra = {[ "q" := v ]}) \/ (exists v, extra = {[ "limit" := v ]})).
Proof.
  destruct request as [n [args | ]].
  - destruct (decide (n ∈ known_tools)) as [Hn | Hn].
    + apply known_tool_cases in Hn as [-> | [-> | ->]].
      * destruct (to_string (args !! "beer_id")) as [e | s] eqn:E.
        -- left. run_handler. rewrite E. simpl.
           rewrite (to_string_error _ _ E). reflexivity.
        -- right. exists ("/beer/info/" +:+ s), ∅.
           fold (call "get_beer_info" args).
           rewrite (get_beer_info_settles _ _ _ E), settle_issued. eauto.
      * right. eexists _, _. fold (call "search_beer" args).
        rewrite search_beer_settles, settle_issued. eauto.
      * right. eexists _, _. fold (call "get_user_checkins" args).
        rewrite get_user_checkins_settles, settle_issued. eauto.
    + left. by rewrite unknown_tool_is_method_not_found_aux.
  - left. destruct (decide (n ∈ known_tools)) as [Hn | Hn].
    + apply known_tool_cases in Hn as [-> | [-> | ->]]; reflexivity.
    + by rewrite unknown_tool_is_method_not_found_aux.
Qed.

(** The same, with the path: the three requests the dispatcher can send. *)
Lemma CallToolHandler_issued_paths request w :
  issued (CallToolHandler remote request w).2 = issued w \/
  exists path extra,
    issued (CallToolHandler remote request w).2
      = issued w ++ [mergeConfig (axiosInstance (this w)) (get_call path extra)] /\
    (((exists s, path = "/beer/info/" +:+ s) /\ extra = ∅) \/
     (path = "/search/beer" /\ exists v, extra = {[ "q" := v ]}) \/
     (path = "/user/checkins" /\ exists v, extra = {[ "limit" := v ]})).
Proof.
  destruct request as [n [args | ]].
  - destruct (decide (n ∈ known_tools)) as [Hn | Hn].
    + apply known_tool_cases in Hn as [-> | [-> | ->]].
      * destruct (to_string (args !! "beer_id")) as [e | s] eqn:E.
        -- left. run_handler. rewrite E. simpl.
           rewrite (to_string_error _ _ E). reflexivity.
        -- right. exists ("/beer/info/" +:+ s), ∅.
           fold (call "get_beer_info" args).
           rewrite (get_beer_info_settles _ _ _ E), settle_issued. eauto.
      * right. eexists _, _. fold (call "search_beer" args).
        rewrite search_beer_settles, settle_issued. eauto 6.
      * right. eexists _, _. fold (call "get_user_checkins" args).
        rewrite get_user_checkins_settles, settle_issued. eauto 6.
    + left. by rewrite unknown_tool_is_method_not_found_aux.
  - left. destruct (decide (n ∈ known_tools)) as [Hn | Hn].
    + apply known_tool_cases in Hn as [-> | [-> | ->]]; reflexivity.
    + by rewrite unknown_tool_is_method_not_found_aux.
Qed.

(** C7: let the process start with credentials [id] and [secret], and let
    a handler of the server it built run.  The start-up created exactly one
    axios instance; the run leaves the server object, and with it the
    client configuration, as it was; and every request the run puts on the
    wire is a GET against the Untappd base address, for one of the relative
    paths [/search/beer], [/user/checkins] or [/beer/info/] followed by a
    string, carrying [client_id] and [client_secret] among its
    parameters. *)
Theorem requests_carry_credentials env connect id secret srv trace request w :
  env !! "CLIENT_ID" = Some id -> id ≠ "" ->
  env !! "CLIENT_SECRET" = Some secret -> secret ≠ "" ->
  main env connect [] = (Some srv, trace) ->
  this w = srv ->
  length (List.filter is_AxiosCreate trace) = 1 /\
  this (CallToolHandler remote request w).2 = srv /\
  exists new,
    issued (CallToolHandler remote request w).2 = issued w ++ new /\
    Forall (fun r =>
              method r = Some "get" /\
              baseURL r = Some untappd_base /\
              (url r = Some "/search/beer" \/ url r = Some "/user/checkins" \/
               exists s, url r = Some ("/beer/info/" +:+ s)) /\
              params r !! "client_id" = Some (Some (JStr id)) /\
              params r !! "client_secret" = Some (Some (JStr secret))) new.
Proof.
  intros Eid Hid Esec Hsec Hmain Hthis.
  destruct (main_starts env connect id secret Eid Hid Esec Hsec) as (srv' & Hinst & Hmain').
  rewrite Hmain in Hmain'. injection Hmain' as <- ->.
  split; [by destruct connect |]. split; [by rewrite CallToolHandler_this |].
  destruct (CallToolHandler_issued_paths request w) as [-> | (path & extra & -> & Hcall)].
  - exists []. split; [by rewrite app_nil_r | constructor].
  - eexists. split; [reflexivity |].
    apply Forall_cons. split; [ | apply Forall_nil; exact I].
    split; [reflexivity |]. simpl. rewrite Hthis, Hinst. simpl.
    split; [reflexivity |]. split.
    + destruct Hcall as [((s & ->) & _) | [(-> & _) | (-> & _)]]; eauto.
    + destruct Hcall as [(_ & ->) | [(_ & v & ->) | (_ & v & ->)]];
        rewrite !lookup_union_r by (by rewrite ?lookup_empty, ?lookup_singleton_ne);
        by rewrite lookup_insert_eq, lookup_insert_ne, lookup_singleton_eq.
Qed.

(** *** Repetition *)

(** C9: run a call, then run the same call again from the runtime the first
    run left behind, against a remote that answers the request of the first
    run as it was answered the first time.  Both runs end the same way, with
    the same envelope and hence the same text or with the same thrown
    error, and neither changes the server object the next run starts
    from. *)
Theorem repeated_call_is_identical (remote' : Remote number) request w o1 w1 o2 w2 :
  CallToolHandler remote request w = (o1, w1) ->
  CallToolHandler remote' request w1 = (o2, w2) ->
  (forall r, issued w1 = issued w ++ [r] -> remote' r = remote r) ->
  o1 = o2 /\ this w1 = this w /\ this w2 = this w.
Proof.
  intros H1 H2 Hsame.
  assert (Ht1 : this w1 = this w).
  { pose proof (CallToolHandler_this request w) as Ht. by rewrite H1 in Ht. }
  assert (Ht2 : this w2 = this w).
  { destruct (CallToolHandler_cases request) as [(e & _ & He) | (path & extra & Hs)].
    - rewrite He in H2. injection H2 as _ <-. exact Ht1.
    - rewrite Hs in H2. apply (f_equal snd) in H2. simpl in H2.
      rewrite settle_runtime in H2. subst w2. exact Ht1. }
  split; [ | done].
  destruct (CallToolHandler_cases request) as [(e & _ & He) | (path & extra & Hs)].
  - rewrite He in H1, H2. injection H1 as <- _. by injection H2 as <- _.
  - rewrite Hs in H1, H2. rewrite Ht1 in H2.
    set (r := mergeConfig (axiosInstance (this w)) (get_call path extra)) in *.
    assert (Hr : remote' r = remote r).
    { apply Hsame. pose proof (settle_issued r w) as Hi. by rewrite H1 in Hi. }
    apply (f_equal fst) in H1, H2. simpl in H1, H2. subst o1 o2.
    unfold settle. rewrite Hr. destruct (remote r) as [e | response]; [ | reflexivity].
    apply on_failure_outcome.
Qed.
End Properties.

(** * The statements on the fixtures *)

(** The success case of the specification: [get_beer_info] with
    [beer_id = "123"] against a remote answering [beer_body]. *)
Example get_beer_info_123 :
  CallToolHandler beer_found (call "get_beer_info" {[ "beer_id" := JStr "123" ]}) example_runtime
    = (inr {| content := [ {| type := "text"; text := beer_body_text |} ]; isError := None |},
       {| this := example_server; issued := [beer_request "123"] |}).
Proof. vm_compute. reflexivity. Qed.

(** The error case of the specification: the API's [error_detail] is shown. *)
Example get_beer_info_999999 :
  (CallToolHandler beer_not_found
     (call "get_beer_info" {[ "beer_id" := JStr "999999" ]}) example_runtime).1
    = inr {| content := [ {| type := "text"; text := "Untappd API error: Beer not found" |} ];
             isError := Some true |}.
Proof. vm_compute. reflexivity. Qed.

(** An axios error without a response falls back to [error.message]. *)
Example get_beer_info_no_response :
  (CallToolHandler (fun _ => inl (AxiosError "Network Error" None))
     (call "get_beer_info" {[ "beer_id" := JStr "1" ]}) example_runtime).1
    = inr {| content := [ {| type := "text"; text := "Untappd API error: Network Error" |} ];
             isError := Some true |}.
Proof. vm_compute. reflexivity. Qed.

(** C1: an API-shaped failure whose response body has no [meta] member is not
    turned into an error envelope.  With [beer_id = "1"] and a remote that
    answers status 503 with the body [{ message: Service Unavailable }], the
    request goes out, the [catch] block reads [error_detail] off the missing
    [meta], and the handler throws a [TypeError] instead of returning the
    text made of the prefix and [error.message]. *)
Theorem api_error_body_without_meta_throws :
  CallToolHandler gateway_unavailable
    (call "get_beer_info" {[ "beer_id" := JStr "1" ]}) example_runtime
    = (inl TypeError, {| this := example_server; issued := [beer_request "1"] |}).
Proof. vm_compute. reflexivity. Qed.

Lemma unknown_tool_is_method_not_found_witness :
  CallToolHandler beer_found
    {| params_name := "delete_beer"; params_arguments := Some ∅ |} example_runtime
    = (inl (McpError MethodNotFound "Unknown tool: delete_beer"), example_runtime).
Proof.
  apply (unknown_tool_is_method_not_found beer_found
           {| params_name := "delete_beer"; params_arguments := Some ∅ |} example_runtime).
  simpl. unfold known_tools. intros Hin.
  repeat (apply elem_of_cons in Hin as [Hin | Hin]; [discriminate |]).
  by apply elem_of_nil in Hin.
Defined.

Lemma missing_arguments_throw_witness :
  CallToolHandler beer_found
    {| params_name := "search_beer"; params_arguments := None |} example_runtime
    = (inl TypeError, example_runtime).
Proof.
  apply (missing_arguments_throw beer_found
           {| params_name := "search_beer"; params_arguments := None |} example_runtime).
  - simpl. unfold known_tools. rewrite !elem_of_cons. right. by left.
  - reflexivity.
Defined.

Lemma success_envelope_witness :
  exists result,
    inr {| content := [ {| type := "text"; text := beer_body_text |} ]; isError := None |}
      = inr (A := js_error Z) result /\
    content result
      = [ {| type := "text"; text := JSON_stringify beer_body 2 |} ] /\
    isError result = None /\
    isError_flag result = false.
Proof.
  apply (success_envelope beer_found
           (call "get_beer_info" {[ "beer_id" := JStr "123" ]}) example_runtime
           _ {| this := example_server; issued := [beer_request "123"] |}
           (beer_request "123") {| status := 200%Z; data := beer_body |}).
  - exact get_beer_info_123.
  - reflexivity.
  - reflexivity.
Defined.

Lemma foreign_error_rethrown_witness :
  (CallToolHandler foreign_failure
     (call "get_user_checkins" {[ "limit" := JNum 5%Z ]}) example_runtime).1
    = inl (OtherError "boom").
Proof.
  apply (foreign_error_rethrown foreign_failure
           (call "get_user_checkins" {[ "limit" := JNum 5%Z ]}) example_runtime
           _ (CallToolHandler foreign_failure
                (call "get_user_checkins" {[ "limit" := JNum 5%Z ]}) example_runtime).2
           {| method := Some "get"; baseURL := Some untappd_base;
              url := Some "/user/checkins";
              params := {[ "limit" := Some (JNum 5%Z);
                           "client_id" := Some (JStr "abc");
                           "client_secret" := Some (JStr "xyz") ]} |}
           (OtherError "boom")).
  - vm_compute. reflexivity.
  - vm_compute. reflexivity.
  - reflexivity.
  - reflexivity.
Defined.

Lemma startup_credential_gate_witness :
  main (number := Z) {[ "CLIENT_ID" := "abc" ]} None []
    = (None, [ConsoleError missing_credentials_line; ProcessExit 1]) /\
  exists srv trace,
    main (number := Z) example_env None [] = (Some srv, trace) /\
    (forall code, ProcessExit code ∉ trace) /\
    hd_error trace = Some (NewServer "untappd-server" "0.1.0") /\
    ServerConnect ∈ trace.
Proof.
  split.
  - apply (proj1 (startup_credential_gate (number := Z) {[ "CLIENT_ID" := "abc" ]} None)).
    right. right. left. vm_compute. reflexivity.
  - apply (proj2 (startup_credential_gate (number := Z) example_env None) "abc" "xyz").
    + vm_compute. reflexivity.
    + discriminate.
    + vm_compute. reflexivity.
    + discriminate.
Defined.


Lemma each_tool_issues_one_get_witness :
  issued (CallToolHandler beer_found
            (call "get_beer_info" {[ "beer_id" := JStr "123" ]}) example_runtime).2
    = [beer_request "123"] /\
  CallToolHandler beer_found
    (call "search_beer" {[ "query" := JStr "stout" ]}) example_runtime
    = CallToolHandler beer_found
        (call "search_beer" {[ "query" := JStr "stout"; "limit" := JNum 3%Z ]}) example_runtime.
Proof.
  split.
  - apply (proj1 (each_tool_issues_one_get beer_found
                    {[ "beer_id" := JStr "123" ]} example_runtime) "123").
    reflexivity.
  - apply (proj1 (proj2 (proj2 (proj2 (proj2
             (each_tool_issues_one_get beer_found
                {[ "query" := JStr "stout" ]} example_runtime)))
             {[ "query" := JStr "stout"; "limit" := JNum 3%Z ]}))).
    vm_compute. reflexivity.
Defined.

Lemma requests_carry_credentials_witness :
  length (List.filter is_AxiosCreate (main (number := Z) example_env None []).2) = 1 /\
  this (CallToolHandler beer_found
          (call "search_beer" {[ "query" := JStr "stout" ]}) example_runtime).2
    = example_server /\
  exists new,
    issued (CallToolHandler beer_found
              (call "search_beer" {[ "query" := JStr "stout" ]}) example_runtime).2
      = issued example_runtime ++ new /\
    Forall (fun r =>
              method r = Some "get" /\
              baseURL r = Some untappd_base /\
              (url r = Some "/search/beer" \/ url r = Some "/user/checkins" \/
               exists s, url r = Some ("/beer/info/" +:+ s)) /\
              params r !! "client_id" = Some (Some (JStr "abc")) /\
              params r !! "client_secret" = Some (Some (JStr "xyz"))) new.
Proof.
  apply (requests_carry_credentials beer_found example_env None "abc" "xyz"
           example_server (main (number := Z) example_env None []).2
           (call "search_beer" {[ "query" := JStr "stout" ]}) example_runtime).
  - vm_compute. reflexivity.
  - discriminate.
  - vm_compute. reflexivity.
  - discriminate.
  - vm_compute. reflexivity.
  - reflexivity.
Defined.

Lemma repeated_call_is_identical_witness :
  (CallToolHandler beer_found
     (call "get_beer_info" {[ "beer_id" := JStr "123" ]}) example_runtime).1
    = (CallToolHandler beer_found
         (call "get_beer_info" {[ "beer_id" := JStr "123" ]})
         {| this := example_server; issued := [beer_request "123"] |}).1 /\
  this {| this := example_server; issued := [beer_request "123"] |} = this example_runtime /\
  this (CallToolHandler beer_found
          (call "get_beer_info" {[ "beer_id" := JStr "123" ]})
          {| this := example_server; issued := [beer_request "123"] |}).2
    = this example_runtime.
Proof.
  apply (repeated_call_is_identical beer_found beer_found
           (call "get_beer_info" {[ "beer_id" := JStr "123" ]}) example_runtime).
  - vm_compute. reflexivity.
  - vm_compute. reflexivity.
  - intros r _. reflexivity.
Defined.

(** * Further properties of the dispatcher *)

Section Dispatcher.
Context `{JsNumber number}.
Variable remote : Remote number.

Implicit Types (request : CallToolRequest number) (w : Runtime number) (error : js_error number).

(** A call to a known tool throws a [TypeError] before anything is
    dispatched (no arguments, or a [beer_id] that cannot be printed), or it
    dispatches one request and settles it. *)
Lemma known_tool_run request :
  params_name request ∈ known_tools ->
  (forall remote w, CallToolHandler remote request w = (inl TypeError, w)) \/
  (exists path extra, forall remote w,
      CallToolHandler remote request w
        = settle remote (mergeConfig (axiosInstance (this w)) (get_call path extra)) w).
Proof.
  destruct request as [n [args | ]]; simpl; intros Hn.
  - apply known_tool_cases in Hn as [-> | [-> | ->]].
    + destruct (to_string (args !! "beer_id")) as [e | s] eqn:E.
      * left. intros rem w. pose proof (to_string_error _ _ E) as ->.
        unfold CallToolHandler, destructure, try_catch, template,
          mbind, Handler_bind, bind, ret, throw. simpl. rewrite E. reflexivity.
      * right. exists ("/beer/info/" +:+ s), ∅. intros rem w.
        apply (get_beer_info_settles rem args w s E).
    + right. eexists _, _. intros rem w. apply search_beer_settles.
    + right. eexists _, _. intros rem w. apply get_user_checkins_settles.
  - left. intros rem w. apply known_tool_cases in Hn as [-> | [-> | ->]]; reflexivity.
Qed.

Lemma error_detail_cases (response : option (AxiosResponse number)) :
  (exists detail, forall w, error_detail response w = (inr detail, w)) \/
  (forall w, error_detail response w = (inl TypeError, w)).
Proof.
  destruct response as [[st body] | ]; [ | left; by exists None].
  destruct body as [ | b | n | s | items | members];
    try (right; intros w; reflexivity).
  unfold error_detail, get_property, mbind, Handler_bind, bind, ret, throw. simpl.
  destruct (own_property "meta" members) as [[ | b | n | s | items | meta] | ];
    try (right; intros w; reflexivity);
    left; eexists; intros w; reflexivity.
Qed.

(** The [catch] block, given an axios error, returns an error envelope or
    throws a [TypeError]; it never throws the axios error itself. *)
Lemma on_failure_axios_cases message (response : option (AxiosResponse number)) :
  (exists shown, forall w,
      on_failure (AxiosError message response) w = (inr (error_envelope shown), w)) \/
  (forall w, on_failure (AxiosError message response) w = (inl TypeError, w)).
Proof.
  unfold on_failure, mbind, Handler_bind, bind.
  destruct (error_detail_cases response) as [(detail & Hd) | Hd].
  - unfold template.
    destruct (to_string (nullish detail (Some (JStr message)))) as [e | s] eqn:E.
    + right. intros w. rewrite Hd. pose proof (to_string_error _ _ E) as ->.
      cbn beta iota. rewrite E. reflexivity.
    + left. exists s. intros w. rewrite Hd. cbn beta iota. rewrite E. reflexivity.
  - right. intros w. by rewrite Hd.
Qed.

(** What a returned envelope tells: one request went out, and the envelope
    is [success] of the answer or the error envelope of an axios rejection. *)
Lemma envelope_characterised request w result w' :
  CallToolHandler remote request w = (inr result, w') ->
  exists r,
    issued w' = issued w ++ [r] /\
    match remote r with
    | inr response => result = success response
    | inl error => isAxiosError error = true /\ exists shown, result = error_envelope shown
    end.
Proof.
  intros Hrun.
  destruct (CallToolHandler_cases request) as [(e & _ & He) | (path & extra & Hs)].
  - rewrite He in Hrun. discriminate.
  - rewrite Hs in Hrun. eexists. split.
    + pose proof (settle_issued remote (mergeConfig (axiosInstance (this w))
        (get_call path extra)) w) as Hi. rewrite Hrun in Hi. exact Hi.
    + unfold settle in Hrun. destruct (remote _) as [error | response].
      * destruct error as [message response | | | ]; try discriminate.
        split; [reflexivity |].
        destruct (on_failure_axios_cases message response) as [(shown & Ho) | Ho];
          rewrite Ho in Hrun; [ | discriminate].
        exists shown. by injection Hrun as <- _.
      * by injection Hrun as <- _.
Qed.

(** X1: whatever a call throws is one of three things: the [MethodNotFound]
    error for a name outside the three tools (nothing dispatched), a
    [TypeError], or the very rejection of the dispatched request, which is
    then not an axios error.  In particular an axios error is never thrown. *)
Theorem thrown_errors_classified request w error w' :
  CallToolHandler remote request w = (inl error, w') ->
  ((params_name request ∉ known_tools) /\ w' = w /\
   error = McpError MethodNotFound ("Unknown tool: " +:+ params_name request)) \/
  error = TypeError \/
  (exists r, issued w' = issued w ++ [r] /\ remote r = inl error /\ isAxiosError error = false).
Proof.
  intros Hrun. destruct (decide (params_name request ∈ known_tools)) as [Hn | Hn].
  - right. destruct (known_tool_run request Hn) as [Ht | (path & extra & Hs)].
    + rewrite Ht in Hrun. left. by injection Hrun as <- _.
    + rewrite Hs in Hrun.
      pose proof (settle_issued remote (mergeConfig (axiosInstance (this w))
        (get_call path extra)) w) as Hi. rewrite Hrun in Hi. simpl in Hi.
      unfold settle in Hrun. destruct (remote _) as [e0 | response] eqn:Hrem; [ | discriminate].
      destruct (isAxiosError e0) eqn:Hax.
      * destruct e0 as [message response | | | ]; try discriminate.
        destruct (on_failure_axios_cases message response) as [(shown & Ho) | Ho];
          rewrite Ho in Hrun; [discriminate |].
        left. by injection Hrun as <- _.
      * rewrite (on_failure_rethrows _ _ Hax) in Hrun. injection Hrun as <- _.
        right. eexists. split; [exact Hi |]. by split.
  - left. rewrite (unknown_tool_is_method_not_found_aux remote request w Hn) in Hrun.
    by injection Hrun as <- <-.
Qed.

(** X2: every envelope the dispatcher returns holds exactly one content
    block, and that block is of type [text]. *)
Theorem envelope_is_one_text_block request w result w' :
  CallToolHandler remote request w = (inr result, w') ->
  exists t, content result = [ {| type := "text"; text := t |} ].
Proof.
  intros Hrun. destruct (envelope_characterised _ _ _ _ Hrun) as (r & _ & Hres).
  destruct (remote r) as [error | response].
  - destruct Hres as (_ & shown & ->). by eexists.
  - subst result. by eexists.
Qed.

(** X3: an envelope is returned only after exactly one request went out, and
    its [isError] property is [true] exactly when the remote rejected that
    request; otherwise the property is absent. *)
Theorem error_flag_iff_rejected request w result w' :
  CallToolHandler remote request w = (inr result, w') ->
  exists r,
    issued w' = issued w ++ [r] /\
    (isError result = Some true <-> exists error, remote r = inl error) /\
    (isError result = None <-> exists response, remote r = inr response).
Proof.
  intros Hrun. destruct (envelope_characterised _ _ _ _ Hrun) as (r & Hi & Hres).
  exists r. split; [exact Hi |].
  destruct (remote r) as [error | response].
  - destruct Hres as (_ & shown & ->). simpl. split; split; try done.
    + intros _. by eexists.
    + intros [? [=]].
  - subst result. simpl. split; split; try done.
    + intros [? [=]].
    + intros _. by eexists.
Qed.

(** X4: the text of an envelope flagged as an error always begins with
    "Untappd API error: ". *)
Theorem error_text_has_prefix request w result w' :
  CallToolHandler remote request w = (inr result, w') ->
  isError_flag result = true ->
  exists shown,
    content result = [ {| type := "text"; text := "Untappd API error: " +:+ shown |} ].
Proof.
  intros Hrun Hflag. destruct (envelope_characterised _ _ _ _ Hrun) as (r & _ & Hres).
  destruct (remote r) as [error | response].
  - destruct Hres as (_ & shown & ->). by exists shown.
  - subst result. discriminate.
Qed.

(** X5: no call, whatever its name and arguments and whatever the remote
    answers, puts more than one request on the wire: there is no retry. *)
Theorem at_most_one_request request w :
  exists new,
    issued (CallToolHandler remote request w).2 = issued w ++ new /\ length new <= 1.
Proof.
  destruct (CallToolHandler_issued remote request w) as [-> | (path & extra & -> & _)].
  - exists []. split; [by rewrite app_nil_r | simpl; lia].
  - eexists. split; [reflexivity | simpl; lia].
Qed.

(** *** The [catch] block on API-shaped errors *)

(** X6: when the request is rejected with an axios error whose response body
    is an object with an object [meta] holding a string [error_detail], the
    call returns the error envelope showing that string. *)
Theorem api_error_detail_shown request w o w' r message st members meta detail :
  CallToolHandler remote request w = (o, w') ->
  issued w' = issued w ++ [r] ->
  remote r = inl (AxiosError message (Some {| status := st; data := JObj members |})) ->
  own_property "meta" members = Some (JObj meta) ->
  own_property "error_detail" meta = Some (JStr detail) ->
  o = inr {| content := [ {| type := "text"; text := "Untappd API error: " +:+ detail |} ];
             isError := Some true |}.
Proof.
  intros Hrun Hiss Hko Hm Hd. pose proof (one_request_settled _ _ _ _ _ _ Hrun Hiss) as Hs.
  unfold settle in Hs. rewrite Hko, (on_failure_detail _ _ _ _ _ _ Hm Hd) in Hs.
  by injection Hs as <- _.
Qed.

(** X7: when the request is rejected with an axios error that carries no
    response at all (the network failed), the call returns the error envelope
    showing [error.message]. *)
Theorem api_error_without_response_shows_message request w o w' r message :
  CallToolHandler remote request w = (o, w') ->
  issued w' = issued w ++ [r] ->
  remote r = inl (AxiosError message None) ->
  o = inr {| content := [ {| type := "text"; text := "Untappd API error: " +:+ message |} ];
             isError := Some true |}.
Proof.
  intros Hrun Hiss Hko. pose proof (one_request_settled _ _ _ _ _ _ Hrun Hiss) as Hs.
  unfold settle in Hs. rewrite Hko, on_failure_no_response in Hs.
  by injection Hs as <- _.
Qed.

(** X8: when the body has an object [meta] in which [error_detail] is missing
    or is [null], the call falls back to [error.message]. *)
Theorem api_error_nullish_detail_falls_back request w o w' r message st members meta :
  CallToolHandler remote request w = (o, w') ->
  issued w' = issued w ++ [r] ->
  remote r = inl (AxiosError message (Some {| status := st; data := JObj members |})) ->
  own_property "meta" members = Some (JObj meta) ->
  own_property "error_detail" meta = None \/ own_property "error_detail" meta = Some JNull ->
  o = inr {| content := [ {| type := "text"; text := "Untappd API error: " +:+ message |} ];
             isError := Some true |}.
Proof.
  intros Hrun Hiss Hko Hm Hd. pose proof (one_request_settled _ _ _ _ _ _ Hrun Hiss) as Hs.
  unfold settle in Hs. rewrite Hko in Hs.
  assert (Hon : forall w0, on_failure (AxiosError message
                   (Some {| status := st; data := JObj members |})) w0
                 = (inr (error_envelope message), w0)).
  { intros w0. unfold on_failure, error_detail, get_property, template,
      mbind, Handler_bind, bind, ret, throw. simpl. rewrite Hm. simpl.
    destruct Hd as [-> | ->]; reflexivity. }
  rewrite Hon in Hs. by injection Hs as <- _.
Qed.

(** X9: when the axios error has a response whose body is anything but an
    object with a non-null [meta] member (a string such as an HTML page, an
    array, a number, [null], an object without [meta]), the [catch] block
    throws a [TypeError] and no envelope is returned. *)
Theorem api_error_malformed_body_throws request w o w' r message (response : AxiosResponse number) :
  CallToolHandler remote request w = (o, w') ->
  issued w' = issued w ++ [r] ->
  remote r = inl (AxiosError message (Some response)) ->
  (forall members, data response = JObj members ->
     own_property "meta" members = None \/ own_property "meta" members = Some JNull) ->
  o = inl TypeError.
Proof.
  intros Hrun Hiss Hko Hbody. pose proof (one_request_settled _ _ _ _ _ _ Hrun Hiss) as Hs.
  unfold settle in Hs. rewrite Hko in Hs.
  assert (Hon : forall w0, on_failure (AxiosError message (Some response)) w0
                           = (inl TypeError, w0)).
  { intros w0. destruct response as [st body].
    unfold on_failure, error_detail, get_property, mbind, Handler_bind, bind, ret, throw.
    simpl in *. destruct body as [ | b | n | s | items | members]; try reflexivity.
    destruct (Hbody members eq_refl) as [-> | ->]; reflexivity. }
  rewrite Hon in Hs. by injection Hs as <- _.
Qed.

(** *** Arguments that are missing or cannot be printed *)

(** X10: [get_user_checkins] called without [limit] sends the parameter
    [limit] as [undefined]: the default 25 that the catalogue declares is not
    applied by the dispatcher. *)
Theorem missing_limit_is_not_defaulted args w :
  args !! "limit" = None ->
  exists r,
    issued (CallToolHandler remote (call "get_user_checkins" args) w).2 = issued w ++ [r] /\
    url r = Some "/user/checkins" /\
    params r !! "limit" = Some None.
Proof.
  intros Hl. eexists. rewrite get_user_checkins_settles, settle_issued.
  split; [reflexivity |]. split; [reflexivity |].
  simpl. rewrite Hl. apply lookup_union_Some_l, lookup_singleton_eq.
Qed.

(** X11: [get_beer_info] called without [beer_id] still sends a request: the
    template prints [undefined] into the path. *)
Theorem missing_beer_id_requests_undefined args w :
  args !! "beer_id" = None ->
  exists r,
    issued (CallToolHandler remote (call "get_beer_info" args) w).2 = issued w ++ [r] /\
    url r = Some "/beer/info/undefined".
Proof.
  intros Hb. eexists.
  rewrite (get_beer_info_settles remote args w "undefined") by (by rewrite Hb).
  rewrite settle_issued. split; reflexivity.
Qed.

(** X12: [get_beer_info] with a [beer_id] that is an object having a member
    named [toString] throws a [TypeError] out of the [try] block: the
    [catch] rethrows it, nothing is dispatched. *)
Theorem unprintable_beer_id_throws args w members (v : json number) :
  args !! "beer_id" = Some (JObj members) ->
  own_property "toString" members = Some v ->
  CallToolHandler remote (call "get_beer_info" args) w = (inl TypeError, w).
Proof.
  intros Hb Ht.
  unfold CallToolHandler, destructure, try_catch, template, to_string,
    mbind, Handler_bind, bind, ret, throw. simpl. rewrite Hb. simpl. rewrite Ht. reflexivity.
Qed.

(** X13: the catalogue and the dispatcher agree on the tools: given an
    arguments record whose [beer_id] can be printed, a call dispatches a
    request exactly when its name is one that list-tools advertises. *)
Theorem advertised_tools_are_dispatched result w0 n args w s :
  (ListToolsHandler (number := number) w0).1 = inr result ->
  to_string (args !! "beer_id") = inr s ->
  n ∈ (name <$> tools result) <->
  exists r, issued (CallToolHandler remote (call n args) w).2 = issued w ++ [r].
Proof.
  intros Hlist Hs. injection Hlist as <-.
  change (n ∈ known_tools <->
          exists r, issued (CallToolHandler remote (call n args) w).2 = issued w ++ [r]).
  split.
  - intros Hn. apply known_tool_cases in Hn as [-> | [-> | ->]]; eexists.
    + by rewrite (get_beer_info_settles remote args w s Hs), settle_issued.
    + by rewrite search_beer_settles, settle_issued.
    + by rewrite get_user_checkins_settles, settle_issued.
  - intros [r Hr]. destruct (decide (n ∈ known_tools)) as [Hn | Hn]; [exact Hn | exfalso].
    rewrite (unknown_tool_is_method_not_found_aux remote (call n args) w Hn) in Hr.
    simpl in Hr. apply (f_equal length) in Hr. rewrite length_app in Hr. simpl in Hr. lia.
Qed.
(** X17: a string [beer_id] goes into the path as it is, without any
    escaping or validation: whatever the string, the request is for
    [/beer/info/] followed by it. *)
Theorem string_beer_id_verbatim args w (id : string) :
  args !! "beer_id" = Some (JStr id) ->
  exists r,
    issued (CallToolHandler remote (call "get_beer_info" args) w).2 = issued w ++ [r] /\
    url r = Some ("/beer/info/" +:+ id) /\
    baseURL r = baseURL (axiosInstance (this w)).
Proof.
  intros Hb. eexists.
  rewrite (get_beer_info_settles remote args w id) by (by rewrite Hb).
  rewrite settle_issued. repeat split.
Qed.
End Dispatcher.

(** * Further properties of the start-up *)

Section Lifecycle.
Context `{JsNumber number}.

Implicit Types (connect : option (js_error number)) (env : gmap string string).

(** X14: with both credentials set, a rejected [connect] is only logged: the
    trace ends with [console.error] of the rejection, the readiness line is
    never written, and the process does not exit. *)
Theorem connect_failure_is_logged env (error : js_error number) id secret :
  env !! "CLIENT_ID" = Some id -> id ≠ "" ->
  env !! "CLIENT_SECRET" = Some secret -> secret ≠ "" ->
  exists srv trace,
    main env (Some error) [] = (Some srv, trace) /\
    last trace = Some (ConsoleErrorThrown error) /\
    (ConsoleError "Untappd MCP server running on stdio" ∉ trace) /\
    (forall code, ProcessExit code ∉ trace).
Proof.
  intros Eid Hid Esec Hsec.
  destruct (main_starts env (Some error) id secret Eid Hid Esec Hsec) as (srv & _ & Hmain).
  eexists _, _. split; [exact Hmain |]. split; [reflexivity |].
  split; [ | intros code]; intros Hin;
    repeat (apply elem_of_cons in Hin as [Hin | Hin]; [discriminate |]);
    by apply elem_of_nil in Hin.
Qed.

Lemma main_exists_trace env connect id secret :
  env !! "CLIENT_ID" = Some id -> id ≠ "" ->
  env !! "CLIENT_SECRET" = Some secret -> secret ≠ "" ->
  exists srv,
    requestHandlers (server srv) = [ListToolsRequestSchema; CallToolRequestSchema] /\
    main env connect []
      = (Some srv,
         [ NewServer "untappd-server" "0.1.0"; AxiosCreate (axiosInstance srv);
           SetRequestHandler ListToolsRequestSchema; SetRequestHandler CallToolRequestSchema;
           SetOnError; ProcessOn "SIGINT"; NewStdioServerTransport ]
         ++ ServerConnect ::
         [ match connect with
           | None => ConsoleError "Untappd MCP server running on stdio"
           | Some e => ConsoleErrorThrown e
           end ]).
Proof.
  intros Eid Hid Esec Hsec. unfold main.
  rewrite (env_or_empty_set _ _ _ Eid Hid), (env_or_empty_set _ _ _ Esec Hsec).
  rewrite (not_string_false _ Hid), (not_string_false _ Hsec). simpl.
  eexists {| server := {| requestHandlers := _ |} |}.
  split; [ | destruct connect; reflexivity]. reflexivity.
Qed.

(** X15: in a start-up that goes through, the axios instance is created and
    both request handlers are registered before the transport is connected:
    no request can reach a server without its handlers. *)
Theorem handlers_registered_before_connect env connect id secret :
  env !! "CLIENT_ID" = Some id -> id ≠ "" ->
  env !! "CLIENT_SECRET" = Some secret -> secret ≠ "" ->
  exists srv before after,
    main env connect [] = (Some srv, before ++ ServerConnect :: after) /\
    AxiosCreate (axiosInstance srv) ∈ before /\
    SetRequestHandler ListToolsRequestSchema ∈ before /\
    SetRequestHandler CallToolRequestSchema ∈ before /\
    (ServerConnect ∉ before) /\
    requestHandlers (server srv) = [ListToolsRequestSchema; CallToolRequestSchema].
Proof.
  intros Eid Hid Esec Hsec.
  destruct (main_exists_trace env connect id secret Eid Hid Esec Hsec)
    as (srv & Hh & Hmain).
  exists srv,
    [ NewServer "untappd-server" "0.1.0"; AxiosCreate (axiosInstance srv);
      SetRequestHandler ListToolsRequestSchema; SetRequestHandler CallToolRequestSchema;
      SetOnError; ProcessOn "SIGINT"; NewStdioServerTransport ],
    [ match connect with
      | None => ConsoleError "Untappd MCP server running on stdio"
      | Some e => ConsoleErrorThrown e
      end ].
  split; [exact Hmain |]. rewrite !elem_of_cons.
  split; [tauto |]. split; [tauto |]. split; [tauto |]. split; [ | exact Hh].
  rewrite elem_of_nil. intuition discriminate.
Qed.

(** X16: the start-up reads nothing of the environment but [CLIENT_ID] and
    [CLIENT_SECRET]: two environments that agree on these two start alike. *)
Theorem main_reads_two_variables env env' connect :
  env !! "CLIENT_ID" = env' !! "CLIENT_ID" ->
  env !! "CLIENT_SECRET" = env' !! "CLIENT_SECRET" ->
  main env connect [] = main env' connect [].
Proof.
  intros Eid Esec. unfold main, env_or_empty. by rewrite Eid, Esec.
Qed.
End Lifecycle.

(** * The further properties on the fixtures *)

Lemma thrown_errors_classified_witness :
  ((params_name (call "get_user_checkins" {[ "limit" := JNum 5%Z ]}) ∉ known_tools) /\
   (CallToolHandler foreign_failure
      (call "get_user_checkins" {[ "limit" := JNum 5%Z ]}) example_runtime).2 = example_runtime /\
   OtherError (number := Z) "boom"
     = McpError MethodNotFound
         ("Unknown tool: " +:+ params_name (call "get_user_checkins" {[ "limit" := JNum 5%Z ]}))) \/
  OtherError (number := Z) "boom" = TypeError \/
  (exists r,
      issued (CallToolHandler foreign_failure
                (call "get_user_checkins" {[ "limit" := JNum 5%Z ]}) example_runtime).2
        = issued example_runtime ++ [r] /\
      foreign_failure r = inl (OtherError "boom") /\
      isAxiosError (OtherError (number := Z) "boom") = false).
Proof.
  apply (thrown_errors_classified foreign_failure
           (call "get_user_checkins" {[ "limit" := JNum 5%Z ]}) example_runtime
           (OtherError "boom")).
  vm_compute. reflexivity.
Defined.

Lemma envelope_is_one_text_block_witness :
  exists t,
    content {| content := [ {| type := "text"; text := beer_body_text |} ]; isError := None |}
      = [ {| type := "text"; text := t |} ].
Proof.
  apply (envelope_is_one_text_block beer_found
           (call "get_beer_info" {[ "beer_id" := JStr "123" ]}) example_runtime
           _ {| this := example_server; issued := [beer_request "123"] |}).
  vm_compute. reflexivity.
Defined.

Lemma error_flag_iff_rejected_witness :
  exists r,
    issued {| this := example_server; issued := [beer_request "999999"] |}
      = issued example_runtime ++ [r] /\
    (isError (error_envelope "Beer not found") = Some true
       <-> exists error, beer_not_found r = inl error) /\
    (isError (error_envelope "Beer not found") = None
       <-> exists response, beer_not_found r = inr response).
Proof.
  apply (error_flag_iff_rejected beer_not_found
           (call "get_beer_info" {[ "beer_id" := JStr "999999" ]}) example_runtime).
  vm_compute. reflexivity.
Defined.

Lemma error_text_has_prefix_witness :
  exists shown,
    content (error_envelope "Beer not found")
      = [ {| type := "text"; text := "Untappd API error: " +:+ shown |} ].
Proof.
  apply (error_text_has_prefix beer_not_found
           (call "get_beer_info" {[ "beer_id" := JStr "999999" ]}) example_runtime
           _ {| this := example_server; issued := [beer_request "999999"] |}).
  - vm_compute. reflexivity.
  - reflexivity.
Defined.

Lemma api_error_detail_shown_witness :
  (CallToolHandler beer_not_found
     (call "get_beer_info" {[ "beer_id" := JStr "999999" ]}) example_runtime).1
    = inr {| content := [ {| type := "text";
                             text := "Untappd API error: " +:+ "Beer not found" |} ];
             isError := Some true |}.
Proof.
  apply (api_error_detail_shown beer_not_found
           (call "get_beer_info" {[ "beer_id" := JStr "999999" ]}) example_runtime
           _ {| this := example_server; issued := [beer_request "999999"] |}
           (beer_request "999999") "Request failed with status code 404" 404%Z
           [("meta", JObj [("error_detail", JStr "Beer not found")])]
           [("error_detail", JStr "Beer not found")] "Beer not found").
  - vm_compute. reflexivity.
  - reflexivity.
  - reflexivity.
  - reflexivity.
  - reflexivity.
Defined.

Lemma api_error_without_response_shows_message_witness :
  (CallToolHandler (fun _ => inl (AxiosError "Network Error" None))
     (call "get_beer_info" {[ "beer_id" := JStr "1" ]}) example_runtime).1
    = inr {| content := [ {| type := "text";
                             text := "Untappd API error: " +:+ "Network Error" |} ];
             isError := Some true |}.
Proof.
  apply (api_error_without_response_shows_message
           (fun _ => inl (AxiosError "Network Error" None))
           (call "get_beer_info" {[ "beer_id" := JStr "1" ]}) example_runtime
           _ {| this := example_server; issued := [beer_request "1"] |}
           (beer_request "1") "Network Error").
  - vm_compute. reflexivity.
  - reflexivity.
  - reflexivity.
Defined.

Lemma api_error_nullish_detail_falls_back_witness :
  (CallToolHandler
     (fun _ => inl (AxiosError "Request failed with status code 500"
                      (Some {| status := 500%Z;
                               data := JObj [("meta", JObj [("error_detail", JNull)])] |})))
     (call "get_beer_info" {[ "beer_id" := JStr "1" ]}) example_runtime).1
    = inr {| content := [ {| type := "text";
                             text := "Untappd API error: "
                                       +:+ "Request failed with status code 500" |} ];
             isError := Some true |}.
Proof.
  apply (api_error_nullish_detail_falls_back
           (fun _ => inl (AxiosError "Request failed with status code 500"
                            (Some {| status := 500%Z;
                                     data := JObj [("meta", JObj [("error_detail", JNull)])] |})))
           (call "get_beer_info" {[ "beer_id" := JStr "1" ]}) example_runtime
           _ {| this := example_server; issued := [beer_request "1"] |}
           (beer_request "1") "Request failed with status code 500" 500%Z
           [("meta", JObj [("error_detail", JNull)])] [("error_detail", JNull)]).
  - vm_compute. reflexivity.
  - reflexivity.
  - reflexivity.
  - reflexivity.
  - right. reflexivity.
Defined.

Lemma api_error_malformed_body_throws_witness :
  (CallToolHandler
     (fun _ => inl (AxiosError "Request failed with status code 502"
                      (Some {| status := 502%Z; data := JStr "<html>Bad Gateway</html>" |})))
     (call "search_beer" {[ "query" := JStr "stout" ]}) example_runtime).1
    = inl TypeError.
Proof.
  apply (api_error_malformed_body_throws
           (fun _ => inl (AxiosError "Request failed with status code 502"
                            (Some {| status := 502%Z;
                                     data := JStr "<html>Bad Gateway</html>" |})))
           (call "search_beer" {[ "query" := JStr "stout" ]}) example_runtime
           _ (CallToolHandler
                (fun _ => inl (AxiosError "Request failed with status code 502"
                                 (Some {| status := 502%Z;
                                          data := JStr "<html>Bad Gateway</html>" |})))
                (call "search_beer" {[ "query" := JStr "stout" ]}) example_runtime).2
           {| method := Some "get"; baseURL := Some untappd_base;
              url := Some "/search/beer";
              params := {[ "q" := Some (JStr "stout");
                           "client_id" := Some (JStr "abc");
                           "client_secret" := Some (JStr "xyz") ]} |}
           "Request failed with status code 502"
           {| status := 502%Z; data := JStr "<html>Bad Gateway</html>" |}).
  - vm_compute. reflexivity.
  - vm_compute. reflexivity.
  - reflexivity.
  - intros members. discriminate.
Defined.

Lemma missing_limit_is_not_defaulted_witness :
  exists r,
    issued (CallToolHandler beer_found (call "get_user_checkins" ∅) example_runtime).2
      = issued example_runtime ++ [r] /\
    url r = Some "/user/checkins" /\
    params r !! "limit" = Some None.
Proof.
  apply (missing_limit_is_not_defaulted beer_found ∅ example_runtime).
  reflexivity.
Defined.

Lemma missing_beer_id_requests_undefined_witness :
  exists r,
    issued (CallToolHandler beer_found
              (call "get_beer_info" {[ "id" := JStr "123" ]}) example_runtime).2
      = issued example_runtime ++ [r] /\
    url r = Some "/beer/info/undefined".
Proof.
  apply (missing_beer_id_requests_undefined beer_found {[ "id" := JStr "123" ]} example_runtime).
  vm_compute. reflexivity.
Defined.

Lemma unprintable_beer_id_throws_witness :
  CallToolHandler beer_found
    (call "get_beer_info" {[ "beer_id" := JObj [("toString", JStr "123")] ]}) example_runtime
    = (inl TypeError, example_runtime).
Proof.
  apply (unprintable_beer_id_throws beer_found
           {[ "beer_id" := JObj [("toString", JStr "123")] ]} example_runtime
           [("toString", JStr "123")] (JStr "123")).
  - vm_compute. reflexivity.
  - reflexivity.
Defined.

Lemma advertised_tools_are_dispatched_witness :
  "search_beer" ∈ (name <$> tools (match (ListToolsHandler (number := Z) example_runtime).1 with
                                    | inr result => result
                                    | inl _ => {| tools := [] |}
                                    end)) <->
  exists r,
    issued (CallToolHandler beer_found
              (call "search_beer" {[ "query" := JStr "stout" ]}) example_runtime).2
      = issued example_runtime ++ [r].
Proof.
  apply (advertised_tools_are_dispatched beer_found _ example_runtime "search_beer"
           {[ "query" := JStr "stout" ]} example_runtime "undefined").
  - reflexivity.
  - vm_compute. reflexivity.
Defined.

Lemma string_beer_id_verbatim_witness :
  exists r,
    issued (CallToolHandler beer_found
              (call "get_beer_info" {[ "beer_id" := JStr "../user/checkins" ]})
              example_runtime).2
      = issued example_runtime ++ [r] /\
    url r = Some ("/beer/info/" +:+ "../user/checkins") /\
    baseURL r = baseURL (axiosInstance (this example_runtime)).
Proof.
  apply (string_beer_id_verbatim beer_found
           {[ "beer_id" := JStr "../user/checkins" ]} example_runtime "../user/checkins").
  vm_compute. reflexivity.
Defined.

Lemma connect_failure_is_logged_witness :
  exists srv trace,
    main (number := Z) example_env (Some (OtherError "EPIPE")) [] = (Some srv, trace) /\
    last trace = Some (ConsoleErrorThrown (OtherError "EPIPE")) /\
    (ConsoleError "Untappd MCP server running on stdio" ∉ trace) /\
    (forall code, ProcessExit code ∉ trace).
Proof.
  apply (connect_failure_is_logged (number := Z) example_env (OtherError "EPIPE") "abc" "xyz").
  - vm_compute. reflexivity.
  - discriminate.
  - vm_compute. reflexivity.
  - discriminate.
Defined.

Lemma handlers_registered_before_connect_witness :
  exists srv before after,
    main (number := Z) example_env None [] = (Some srv, before ++ ServerConnect :: after) /\
    AxiosCreate (axiosInstance srv) ∈ before /\
    SetRequestHandler ListToolsRequestSchema ∈ before /\
    SetRequestHandler CallToolRequestSchema ∈ before /\
    (ServerConnect ∉ before) /\
    requestHandlers (server srv) = [ListToolsRequestSchema; CallToolRequestSchema].
Proof.
  apply (handlers_registered_before_connect (number := Z) example_env None "abc" "xyz").
  - vm_compute. reflexivity.
  - discriminate.
  - vm_compute. reflexivity.
  - discriminate.
Defined.

Lemma main_reads_two_variables_witness :
  main (number := Z) example_env None []
    = main (number := Z) (<[ "HOME" := "/root" ]> example_env) None [].
Proof.
  apply (main_reads_two_variables (number := Z) example_env
           (<[ "HOME" := "/root" ]> example_env) None).
  - vm_compute. reflexivity.
  - vm_compute. reflexivity.
Defined.

